(** * react-native-swipe-gestures: the swipe classifier of [GestureHandler]

    A shallow embedding of [src/index.d.ts] (the type declarations and the
    [GestureHandler] function component that follows them).

    - JavaScript numbers are IEEE 754 binary64 values: they are modelled by
      Rocq's primitive [float], whose operations are specified by the
      Standard Library's [FloatAxioms] against [SpecFloat].
    - Optional properties ([config?: ...], [onSwipe?: ...]) are [option]s;
      [None] is an absent (undefined) property.
    - The callbacks of the props are arbitrary functions of the host
      application: they are modelled as transformers of a world [W], and the
      handlers that call them thread that world explicitly.
    - The inner functions of [GestureHandler] close over [props] and
      [_swipeConfig]: they live in a [Section] whose variable is [props]. *)

From Stdlib Require Import Bool List ZArith PArith Floats.
Import ListNotations.

Set Warnings "-inexact-float".

(** ** JavaScript numbers *)

Module JS.

Definition number : Type := float.

(** [Math.abs(x)] *)
Definition Math_abs (x : number) : number := PrimFloat.abs x.

(** [-x] *)
Definition neg (x : number) : number := PrimFloat.opp x.

(** [a < b] and [a > b]; both are false as soon as one side is NaN. *)
Definition lt (a b : number) : bool := PrimFloat.ltb a b.
Definition gt (a b : number) : bool := PrimFloat.ltb b a.

(** [a >= b], used on the specification side only. *)
Definition ge (a b : number) : bool := PrimFloat.leb b a.

(** [a === b] on numbers. *)
Definition strict_eq (a b : number) : bool := PrimFloat.eqb a b.

(** [Number.isNaN(x)] *)
Definition isNaN (x : number) : bool := PrimFloat.is_nan x.

(** [!!x] for an optional boolean property: undefined is falsy. *)
Definition truthy (x : option bool) : bool :=
  match x with
  | Some b => b
  | None => false
  end.

(** [x !== false] for an optional boolean property. *)
Definition not_false (x : option bool) : bool :=
  match x with
  | Some false => false
  | _ => true
  end.

End JS.

(** ** Data model *)

(** [type swipeDirections = 'SWIPE_UP' | 'SWIPE_DOWN' | 'SWIPE_LEFT' | 'SWIPE_RIGHT'] *)
Inductive swipeDirections : Type :=
| SWIPE_UP
| SWIPE_DOWN
| SWIPE_LEFT
| SWIPE_RIGHT.

(** [interface SwipeConfig] *)
Record SwipeConfig : Type := mkSwipeConfig {
  velocityThreshold : JS.number;
  directionalOffsetThreshold : JS.number;
  gestureIsClickThreshold : JS.number;
  needVerticalScroll : bool;
  scrollVerticalThreshold : JS.number;
  swipeEnabled : bool
}.

(** [Partial<SwipeConfig>]: every field may be absent. *)
Record PartialSwipeConfig : Type := mkPartialSwipeConfig {
  velocityThreshold_opt : option JS.number;
  directionalOffsetThreshold_opt : option JS.number;
  gestureIsClickThreshold_opt : option JS.number;
  needVerticalScroll_opt : option bool;
  scrollVerticalThreshold_opt : option JS.number;
  swipeEnabled_opt : option bool
}.

(** The empty object [{}]. *)
Definition emptyConfig : PartialSwipeConfig :=
  mkPartialSwipeConfig None None None None None None.

(** [PanResponderGestureState] of react-native. *)
Record PanResponderGestureState : Type := mkGestureState {
  stateID : JS.number;
  moveX : JS.number;
  moveY : JS.number;
  x0 : JS.number;
  y0 : JS.number;
  dx : JS.number;
  dy : JS.number;
  vx : JS.number;
  vy : JS.number;
  numberActiveTouches : JS.number
}.

(** [GestureResponderEvent]: only [evt.nativeEvent.touches] is read. *)
Record NativeTouch : Type := mkNativeTouch {
  identifier : JS.number;
  pageX : JS.number;
  pageY : JS.number
}.

Record NativeTouchEvent : Type := mkNativeTouchEvent {
  touches : list NativeTouch
}.

Record GestureResponderEvent : Type := mkGestureResponderEvent {
  nativeEvent : NativeTouchEvent
}.

(** [interface GestureHandlerProps]; [W] is the state of the host
    application that the callbacks act on. *)
Record GestureHandlerProps (W : Type) : Type := mkProps {
  config : PartialSwipeConfig;
  props_swipeEnabled : option bool;
  responderTerminationRequest : option bool;
  onSwipe : option (swipeDirections -> PanResponderGestureState -> W -> W);
  onSwipeUp : option (PanResponderGestureState -> W -> W);
  onSwipeDown : option (PanResponderGestureState -> W -> W);
  onSwipeLeft : option (PanResponderGestureState -> W -> W);
  onSwipeRight : option (PanResponderGestureState -> W -> W)
}.

Arguments mkProps {W}.
Arguments config {W}.
Arguments props_swipeEnabled {W}.
Arguments responderTerminationRequest {W}.
Arguments onSwipe {W}.
Arguments onSwipeUp {W}.
Arguments onSwipeDown {W}.
Arguments onSwipeLeft {W}.
Arguments onSwipeRight {W}.

(** [const defaultSwipeConfig: SwipeConfig = {...}] *)
Definition defaultSwipeConfig : SwipeConfig := {|
  velocityThreshold := 0.3%float;
  directionalOffsetThreshold := 80%float;
  gestureIsClickThreshold := 5%float;
  needVerticalScroll := false;
  scrollVerticalThreshold := 5%float;
  swipeEnabled := true
|}.

(** One property of an object spread [{...base, ...override}]. *)
Definition spread_field {A : Type} (base : A) (override : option A) : A :=
  match override with
  | Some v => v
  | None => base
  end.

(** [{...base, ...override}] *)
Definition spread (base : SwipeConfig) (override : PartialSwipeConfig) : SwipeConfig := {|
  velocityThreshold :=
    spread_field (velocityThreshold base) (velocityThreshold_opt override);
  directionalOffsetThreshold :=
    spread_field (directionalOffsetThreshold base) (directionalOffsetThreshold_opt override);
  gestureIsClickThreshold :=
    spread_field (gestureIsClickThreshold base) (gestureIsClickThreshold_opt override);
  needVerticalScroll :=
    spread_field (needVerticalScroll base) (needVerticalScroll_opt override);
  scrollVerticalThreshold :=
    spread_field (scrollVerticalThreshold base) (scrollVerticalThreshold_opt override);
  swipeEnabled :=
    spread_field (swipeEnabled base) (swipeEnabled_opt override)
|}.

(** [f && f(args)]: call an optional callback when it is present. *)
Definition call_if_present {A W : Type} (f : option (A -> W -> W)) (a : A) (w : W) : W :=
  match f with
  | Some g => g a w
  | None => w
  end.

(** ** The body of [GestureHandler(props)] *)

Section GestureHandler.

Context {W : Type}.
Variable props : GestureHandlerProps W.

(** [const _swipeConfig = {...defaultSwipeConfig, ...props.config}] *)
Definition _swipeConfig : SwipeConfig := spread defaultSwipeConfig (config props).

Definition _gestureIsClick (gestureState : PanResponderGestureState) : bool :=
  JS.lt (JS.Math_abs (dx gestureState)) (gestureIsClickThreshold _swipeConfig)
  && JS.lt (JS.Math_abs (dy gestureState)) (gestureIsClickThreshold _swipeConfig).

Definition _handleShouldSetPanResponder
    (evt : GestureResponderEvent) (gestureState : PanResponderGestureState) : bool :=
  if needVerticalScroll _swipeConfig
     && (JS.gt (dy gestureState) (scrollVerticalThreshold _swipeConfig)
         || JS.lt (dy gestureState) (JS.neg (scrollVerticalThreshold _swipeConfig)))
  then false
  else JS.truthy (props_swipeEnabled props)
       && Nat.eqb (length (touches (nativeEvent evt))) 1
       && negb (_gestureIsClick gestureState).

Definition _handleResponderTerminationRequest : bool :=
  JS.not_false (responderTerminationRequest props).

Definition _isValidSwipe
    (velocity velocityThreshold directionalOffset directionalOffsetThreshold : JS.number) : bool :=
  JS.gt (JS.Math_abs velocity) velocityThreshold
  && JS.lt (JS.Math_abs directionalOffset) directionalOffsetThreshold.

Definition _isValidHorizontalSwipe (gestureState : PanResponderGestureState) : bool :=
  let vx := vx gestureState in
  let dy := dy gestureState in
  let velocityThreshold := velocityThreshold defaultSwipeConfig in
  let directionalOffsetThreshold := directionalOffsetThreshold defaultSwipeConfig in
  _isValidSwipe vx velocityThreshold dy directionalOffsetThreshold.

Definition _isValidVerticalSwipe (gestureState : PanResponderGestureState) : bool :=
  let vy := vy gestureState in
  let dx := dx gestureState in
  let velocityThreshold := velocityThreshold defaultSwipeConfig in
  let directionalOffsetThreshold := directionalOffsetThreshold defaultSwipeConfig in
  _isValidSwipe vy velocityThreshold dx directionalOffsetThreshold.

(** [null] is [None]. *)
Definition _getSwipeDirection (gestureState : PanResponderGestureState)
  : option swipeDirections :=
  let dx := dx gestureState in
  let dy := dy gestureState in
  let absDx := JS.Math_abs dx in
  let absDy := JS.Math_abs dy in
  let validHorizontal := _isValidHorizontalSwipe gestureState in
  let validVertical := _isValidVerticalSwipe gestureState in
  let horizontalDirection := if JS.gt dx 0%float then SWIPE_RIGHT else SWIPE_LEFT in
  let verticalDirection := if JS.gt dy 0%float then SWIPE_DOWN else SWIPE_UP in
  if JS.gt absDx absDy then
    if validHorizontal then Some horizontalDirection
    else if validVertical then Some verticalDirection
    else None
  else
    if validVertical then Some verticalDirection
    else if validHorizontal then Some horizontalDirection
    else None.

Definition _triggerSwipeHandlers
    (swipeDirection : swipeDirections) (gestureState : PanResponderGestureState)
    (w : W) : W :=
  let w := match onSwipe props with
           | Some f => f swipeDirection gestureState w
           | None => w
           end in
  match swipeDirection with
  | SWIPE_LEFT => call_if_present (onSwipeLeft props) gestureState w
  | SWIPE_RIGHT => call_if_present (onSwipeRight props) gestureState w
  | SWIPE_UP => call_if_present (onSwipeUp props) gestureState w
  | SWIPE_DOWN => call_if_present (onSwipeDown props) gestureState w
  end.

Definition _handlePanResponderEnd
    (evt : GestureResponderEvent) (gestureState : PanResponderGestureState)
    (w : W) : W :=
  let swipedir := _getSwipeDirection gestureState in
  match swipedir with
  | None => w
  | Some swipedir => _triggerSwipeHandlers swipedir gestureState w
  end.

End GestureHandler.


(** ** Observing the callbacks

    To state which callbacks fire and in which order, the world is a log of
    calls and every callback that is present appends its own call to it. *)

Inductive Handler : Type :=
| H_onSwipe (direction : swipeDirections)
| H_onSwipeUp
| H_onSwipeDown
| H_onSwipeLeft
| H_onSwipeRight.

(** A call: the handler that fired (with its direction argument, for
    [onSwipe]) and the gesture state it received. *)
Definition Call : Type := (Handler * PanResponderGestureState)%type.

Definition Log : Type := list Call.

Definition record (h : Handler) (gestureState : PanResponderGestureState) (log : Log) : Log :=
  log ++ [(h, gestureState)].

(** Which of the five callbacks the caller passes. *)
Record Present : Type := mkPresent {
  has_onSwipe : bool;
  has_onSwipeUp : bool;
  has_onSwipeDown : bool;
  has_onSwipeLeft : bool;
  has_onSwipeRight : bool
}.

Definition when {A : Type} (b : bool) (a : A) : option A :=
  if b then Some a else None.

(** Props whose callbacks, when present, record their call. *)
Definition recordingProps
    (cfg : PartialSwipeConfig) (enabled termination : option bool) (p : Present)
  : GestureHandlerProps Log := {|
  config := cfg;
  props_swipeEnabled := enabled;
  responderTerminationRequest := termination;
  onSwipe := when (has_onSwipe p) (fun d => record (H_onSwipe d));
  onSwipeUp := when (has_onSwipeUp p) (record H_onSwipeUp);
  onSwipeDown := when (has_onSwipeDown p) (record H_onSwipeDown);
  onSwipeLeft := when (has_onSwipeLeft p) (record H_onSwipeLeft);
  onSwipeRight := when (has_onSwipeRight p) (record H_onSwipeRight)
|}.

(** The direction-specific callback that matches a direction. *)
Definition directionCallback {W : Type} (props : GestureHandlerProps W) (d : swipeDirections)
  : option (PanResponderGestureState -> W -> W) :=
  match d with
  | SWIPE_UP => onSwipeUp props
  | SWIPE_DOWN => onSwipeDown props
  | SWIPE_LEFT => onSwipeLeft props
  | SWIPE_RIGHT => onSwipeRight props
  end.

Definition directionHandler (d : swipeDirections) : Handler :=
  match d with
  | SWIPE_UP => H_onSwipeUp
  | SWIPE_DOWN => H_onSwipeDown
  | SWIPE_LEFT => H_onSwipeLeft
  | SWIPE_RIGHT => H_onSwipeRight
  end.

Definition has_direction (p : Present) (d : swipeDirections) : bool :=
  match d with
  | SWIPE_UP => has_onSwipeUp p
  | SWIPE_DOWN => has_onSwipeDown p
  | SWIPE_LEFT => has_onSwipeLeft p
  | SWIPE_RIGHT => has_onSwipeRight p
  end.

(** ** Concrete inputs *)

(** A gesture state with the given displacement and velocity; the other
    fields are those of a single touch that started at the origin. *)
Definition gesture (dx dy vx vy : JS.number) : PanResponderGestureState := {|
  stateID := 1%float;
  moveX := dx;
  moveY := dy;
  x0 := 0%float;
  y0 := 0%float;
  dx := dx;
  dy := dy;
  vx := vx;
  vy := vy;
  numberActiveTouches := 1%float
|}.

(** An event with one active touch point. *)
Definition oneTouch : GestureResponderEvent :=
  {| nativeEvent := {| touches := [mkNativeTouch 0%float 0%float 0%float] |} |}.

(** Props without callbacks, with the given configuration and
    [swipeEnabled]. *)
Definition plainProps (cfg : PartialSwipeConfig) (enabled : option bool)
  : GestureHandlerProps unit :=
  mkProps cfg enabled None None None None None None.

Definition allPresent : Present := mkPresent true true true true true.

(** ** The shared predicate, as the specification words it

    [isValidAxisSwipe(velocityOnAxis, crossAxisDisplacement, config)]: true
    iff [|velocityOnAxis| > velocityThreshold] and
    [|crossAxisDisplacement| < directionalOffsetThreshold], the thresholds
    being those of [config]. *)
Definition isValidAxisSwipe
    (velocityOnAxis crossAxisDisplacement : JS.number) (config : SwipeConfig) : bool :=
  JS.gt (JS.Math_abs velocityOnAxis) (velocityThreshold config)
  && JS.lt (JS.Math_abs crossAxisDisplacement) (directionalOffsetThreshold config).

(** ** The callbacks handed to [PanResponder.create]

    [PanResponder.create] belongs to react-native; what [GestureHandler]
    contributes is the object of callbacks it passes.  The framework calls
    each of them with the event and the gesture state;
    [_handleResponderTerminationRequest] takes no parameter and ignores
    both. *)
Record PanResponderCallbacks (W : Type) : Type := mkPanResponderCallbacks {
  onStartShouldSetPanResponder :
    GestureResponderEvent -> PanResponderGestureState -> bool;
  onMoveShouldSetPanResponder :
    GestureResponderEvent -> PanResponderGestureState -> bool;
  onPanResponderRelease :
    GestureResponderEvent -> PanResponderGestureState -> W -> W;
  onPanResponderTerminate :
    GestureResponderEvent -> PanResponderGestureState -> W -> W;
  onPanResponderTerminationRequest :
    GestureResponderEvent -> PanResponderGestureState -> bool
}.

Arguments onStartShouldSetPanResponder {W}.
Arguments onMoveShouldSetPanResponder {W}.
Arguments onPanResponderRelease {W}.
Arguments onPanResponderTerminate {W}.
Arguments onPanResponderTerminationRequest {W}.

(** The argument of [PanResponder.create({...})]. *)
Definition _panResponder_callbacks {W : Type} (props : GestureHandlerProps W)
  : PanResponderCallbacks W := {|
  onStartShouldSetPanResponder := _handleShouldSetPanResponder props;
  onMoveShouldSetPanResponder := _handleShouldSetPanResponder props;
  onPanResponderRelease := _handlePanResponderEnd props;
  onPanResponderTerminate := _handlePanResponderEnd props;
  onPanResponderTerminationRequest := fun _ _ => _handleResponderTerminationRequest props
|}.

(** ** Reflections of a gesture

    The same gesture seen in a mirror: left and right exchanged
    ([mirrorHorizontal]), up and down exchanged ([mirrorVertical]), or the
    two axes exchanged ([transpose]).  Only the displacement and the velocity
    change. *)
Definition mirrorHorizontal (gs : PanResponderGestureState) : PanResponderGestureState := {|
  stateID := stateID gs;
  moveX := moveX gs;
  moveY := moveY gs;
  x0 := x0 gs;
  y0 := y0 gs;
  dx := JS.neg (dx gs);
  dy := dy gs;
  vx := JS.neg (vx gs);
  vy := vy gs;
  numberActiveTouches := numberActiveTouches gs
|}.

Definition mirrorVertical (gs : PanResponderGestureState) : PanResponderGestureState := {|
  stateID := stateID gs;
  moveX := moveX gs;
  moveY := moveY gs;
  x0 := x0 gs;
  y0 := y0 gs;
  dx := dx gs;
  dy := JS.neg (dy gs);
  vx := vx gs;
  vy := JS.neg (vy gs);
  numberActiveTouches := numberActiveTouches gs
|}.

Definition transpose (gs : PanResponderGestureState) : PanResponderGestureState := {|
  stateID := stateID gs;
  moveX := moveX gs;
  moveY := moveY gs;
  x0 := x0 gs;
  y0 := y0 gs;
  dx := dy gs;
  dy := dx gs;
  vx := vy gs;
  vy := vx gs;
  numberActiveTouches := numberActiveTouches gs
|}.

(** The same gesture with another velocity. *)
Definition withVelocity (gs : PanResponderGestureState) (vx vy : JS.number)
  : PanResponderGestureState := {|
  stateID := stateID gs;
  moveX := moveX gs;
  moveY := moveY gs;
  x0 := x0 gs;
  y0 := y0 gs;
  dx := dx gs;
  dy := dy gs;
  vx := vx;
  vy := vy;
  numberActiveTouches := numberActiveTouches gs
|}.

(** What each reflection does to a direction. *)
Definition flipHorizontal (d : swipeDirections) : swipeDirections :=
  match d with
  | SWIPE_LEFT => SWIPE_RIGHT
  | SWIPE_RIGHT => SWIPE_LEFT
  | d => d
  end.

Definition flipVertical (d : swipeDirections) : swipeDirections :=
  match d with
  | SWIPE_UP => SWIPE_DOWN
  | SWIPE_DOWN => SWIPE_UP
  | d => d
  end.

Definition transposeDirection (d : swipeDirections) : swipeDirections :=
  match d with
  | SWIPE_LEFT => SWIPE_UP
  | SWIPE_RIGHT => SWIPE_DOWN
  | SWIPE_UP => SWIPE_LEFT
  | SWIPE_DOWN => SWIPE_RIGHT
  end.

(** ** Agreement of two numbers *)

(** Two numbers that the code cannot tell apart by comparisons: the same
    value (NaN included), or values that are [===] (which identifies the two
    zeros). *)
Definition same_number (x y : JS.number) : Prop :=
  x = y \/ JS.strict_eq x y = true.

(** ** Facts on binary64 comparisons

    [FloatAxioms] relates each primitive operation to its [SpecFloat]
    counterpart; the facts below are proved on [spec_float] by cases and
    carried back to [float]. *)

Module NumberFacts.

Lemma pos_cont_flip (m n : positive) :
  Pos.compare_cont Eq n m = CompOpp (Pos.compare_cont Eq m n).
Proof. symmetry. apply (Pos.compare_cont_antisym m n Eq). Qed.

Lemma Z_compare_flip (a b : Z) : (b ?= a)%Z = CompOpp (a ?= b)%Z.
Proof. apply Z.compare_antisym. Qed.

(** Case analysis on the shape and sign of a [spec_float]. *)
Ltac sf_cases x :=
  let s := fresh "s" in
  destruct x as [s|s| |s ? ?]; try destruct s.

(** [SFcompare] is antisymmetric. *)
Lemma SFcompare_flip (x y : spec_float) :
  SFcompare y x = option_map CompOpp (SFcompare x y).
Proof.
  sf_cases x; sf_cases y; try reflexivity; simpl;
    match goal with
    | |- context [Pos.compare_cont Eq ?m ?n] =>
        match goal with
        | |- context [(?a ?= ?b)%Z] =>
            rewrite (Z_compare_flip b a), (pos_cont_flip n m);
            destruct (b ?= a)%Z; simpl; rewrite ?CompOpp_involutive; reflexivity
        end
    end.
Qed.

(** [x < x] never holds. *)
Lemma SFltb_irrefl (x : spec_float) : SFltb x x = false.
Proof.
  unfold SFltb.
  sf_cases x; try reflexivity; simpl;
    rewrite Z.compare_refl, Pos.compare_cont_refl; reflexivity.
Qed.

(** The comparison of a number with an absolute value, split by sign:
    [t < |d|] is [t < d || d < -t]. *)
Lemma SFltb_abs_split (t d : spec_float) :
  SFltb t (SFabs d) = SFltb t d || SFltb d (SFopp t).
Proof.
  unfold SFltb.
  sf_cases t; sf_cases d; try reflexivity; simpl;
    match goal with
    | |- context [Pos.compare_cont Eq ?m ?n] =>
        match goal with
        | |- context [(?a ?= ?b)%Z] =>
            try rewrite (Z_compare_flip a b); try rewrite (pos_cont_flip m n);
            destruct (a ?= b)%Z; simpl;
            try destruct (Pos.compare_cont Eq m n); reflexivity
        end
    end.
Qed.

(** [x <= y] excludes [y < x]. *)
Lemma SFleb_not_gt (x y : spec_float) : SFleb x y = true -> SFltb y x = false.
Proof.
  unfold SFleb, SFltb. rewrite (SFcompare_flip x y).
  destruct (SFcompare x y) as [[ | | ]|]; simpl; congruence.
Qed.

(** Numbers that compare equal are the same, or are two zeros. *)
Lemma SFeqb_true_cases (x y : spec_float) :
  SFeqb x y = true ->
  x = y \/ exists s s', x = S754_zero s /\ y = S754_zero s'.
Proof.
  unfold SFeqb.
  destruct x as [sx|sx| |sx mx ex], y as [sy|sy| |sy my ey]; simpl;
    try discriminate; try (destruct sx; discriminate); try (destruct sy; discriminate).
  - intros _. right. now exists sx, sy.
  - destruct sx, sy; try discriminate; now left.
  - intros H. left.
    assert (ex = ey /\ mx = my) as [-> ->].
    { destruct sx, sy; try discriminate;
        destruct (ex ?= ey)%Z eqn:He; try discriminate;
        apply Z.compare_eq in He; split; trivial;
        destruct (Pos.compare_cont Eq mx my) eqn:Hm; try discriminate;
        now apply Pos.compare_eq. }
    destruct sx, sy; try discriminate; reflexivity.
Qed.

Lemma SFeqb_compare_l (x y z : spec_float) :
  SFeqb x y = true -> SFcompare x z = SFcompare y z.
Proof.
  intros H. destruct (SFeqb_true_cases _ _ H) as [->|(s & s' & -> & ->)].
  - reflexivity.
  - destruct z; reflexivity.
Qed.

Lemma SFeqb_compare_r (x y z : spec_float) :
  SFeqb x y = true -> SFcompare z x = SFcompare z y.
Proof.
  intros H. destruct (SFeqb_true_cases _ _ H) as [->|(s & s' & -> & ->)].
  - reflexivity.
  - destruct z; reflexivity.
Qed.

Lemma SFeqb_abs (x y : spec_float) :
  SFeqb x y = true -> SFeqb (SFabs x) (SFabs y) = true.
Proof.
  intros H. destruct (SFeqb_true_cases _ _ H) as [->|(s & s' & -> & ->)].
  - destruct y as [s|s| |s m e]; try reflexivity; try discriminate.
    unfold SFeqb. simpl. now rewrite Z.compare_refl, Pos.compare_cont_refl.
  - reflexivity.
Qed.

(** *** The same facts on [float] *)

Lemma ltb_irrefl (x : float) : (x <? x)%float = false.
Proof. rewrite ltb_spec. apply SFltb_irrefl. Qed.

Lemma ltb_abs_split (t d : float) :
  (t <? abs d)%float = (t <? d)%float || (d <? - t)%float.
Proof. rewrite !ltb_spec, abs_spec, opp_spec. apply SFltb_abs_split. Qed.

Lemma leb_not_gt (x y : float) : (x <=? y)%float = true -> (y <? x)%float = false.
Proof. rewrite leb_spec, ltb_spec. apply SFleb_not_gt. Qed.

Lemma eqb_ltb_l (x y z : float) :
  (x =? y)%float = true -> (x <? z)%float = (y <? z)%float.
Proof.
  rewrite eqb_spec, !ltb_spec. intros H. unfold SFltb.
  now rewrite (SFeqb_compare_l _ _ _ H).
Qed.

Lemma eqb_ltb_r (x y z : float) :
  (x =? y)%float = true -> (z <? x)%float = (z <? y)%float.
Proof.
  rewrite eqb_spec, !ltb_spec. intros H. unfold SFltb.
  now rewrite (SFeqb_compare_r _ _ _ H).
Qed.

Lemma eqb_abs (x y : float) :
  (x =? y)%float = true -> (abs x =? abs y)%float = true.
Proof. rewrite !eqb_spec, !abs_spec. apply SFeqb_abs. Qed.

(** Equal numbers are not strictly ordered, in either direction. *)
Lemma eqb_not_ltb (x y : float) :
  (x =? y)%float = true -> (x <? y)%float = false /\ (y <? x)%float = false.
Proof.
  intros H. split.
  - rewrite (eqb_ltb_l _ _ _ H). apply ltb_irrefl.
  - rewrite (eqb_ltb_r _ _ _ H). apply ltb_irrefl.
Qed.

(** NaN: [is_nan] characterises the NaN of [SpecFloat], and every
    comparison with it, or with its absolute value, is false. *)
Lemma is_nan_spec (x : float) : is_nan x = true -> Prim2SF x = S754_nan.
Proof.
  unfold is_nan. rewrite eqb_spec. unfold SFeqb.
  destruct (Prim2SF x) as [s|s| |s m e]; simpl; trivial; try discriminate.
  - destruct s; discriminate.
  - destruct s; rewrite Z.compare_refl, Pos.compare_cont_refl; discriminate.
Qed.

Lemma nan_abs (x : float) : is_nan x = true -> is_nan (abs x) = true.
Proof.
  intros H. apply is_nan_spec in H.
  unfold is_nan. now rewrite eqb_spec, abs_spec, H.
Qed.

Lemma nan_ltb_l (x y : float) : is_nan x = true -> (x <? y)%float = false.
Proof. intros H. apply is_nan_spec in H. now rewrite ltb_spec, H. Qed.

Lemma nan_ltb_r (x y : float) : is_nan x = true -> (y <? x)%float = false.
Proof.
  intros H. apply is_nan_spec in H. rewrite ltb_spec, H.
  unfold SFltb. now destruct (Prim2SF y).
Qed.

(** *** Further facts: intervals, negation, asymmetry *)

(** [|d| < t] is [d < t && -t < d]. *)
Lemma SFltb_abs_between (t d : spec_float) :
  SFltb (SFabs d) t = SFltb d t && SFltb (SFopp t) d.
Proof.
  unfold SFltb.
  sf_cases t; sf_cases d; try reflexivity; simpl;
    match goal with
    | |- context [Pos.compare_cont Eq ?m ?n] =>
        match goal with
        | |- context [(?a ?= ?b)%Z] =>
            try rewrite (Z_compare_flip a b); try rewrite (pos_cont_flip m n);
            destruct (a ?= b)%Z; simpl;
            try destruct (Pos.compare_cont Eq m n); reflexivity
        end
    end.
Qed.

Lemma SFabs_opp (x : spec_float) : SFabs (SFopp x) = SFabs x.
Proof. now destruct x. Qed.

Lemma SFltb_zero_opp (x : spec_float) :
  SFltb (S754_zero false) (SFopp x) = SFltb x (S754_zero false).
Proof. unfold SFltb. sf_cases x; reflexivity. Qed.

Lemma SFltb_asym (x y : spec_float) : SFltb x y = true -> SFltb y x = false.
Proof.
  unfold SFltb. rewrite (SFcompare_flip x y).
  destruct (SFcompare x y) as [[ | | ]|]; simpl; congruence.
Qed.

Lemma ltb_abs_between (t d : float) :
  (abs d <? t)%float = (d <? t)%float && (- t <? d)%float.
Proof. rewrite !ltb_spec, abs_spec, opp_spec. apply SFltb_abs_between. Qed.

Lemma abs_opp (x : float) : abs (- x) = abs x.
Proof. apply Prim2SF_inj. rewrite !abs_spec, opp_spec. apply SFabs_opp. Qed.

Lemma ltb_zero_opp (x : float) : (0 <? - x)%float = (x <? 0)%float.
Proof. rewrite !ltb_spec, opp_spec. apply SFltb_zero_opp. Qed.

Lemma ltb_asym (x y : float) : (x <? y)%float = true -> (y <? x)%float = false.
Proof. rewrite !ltb_spec. apply SFltb_asym. Qed.

End NumberFacts.

(** ** Unfolding lemmas for the handlers *)

Lemma isValidHorizontalSwipe_default (gs : PanResponderGestureState) :
  _isValidHorizontalSwipe gs = isValidAxisSwipe (vx gs) (dy gs) defaultSwipeConfig.
Proof. reflexivity. Qed.

Lemma isValidVerticalSwipe_default (gs : PanResponderGestureState) :
  _isValidVerticalSwipe gs = isValidAxisSwipe (vy gs) (dx gs) defaultSwipeConfig.
Proof. reflexivity. Qed.

Lemma isValidSwipe_config (v d : JS.number) (cfg : SwipeConfig) :
  _isValidSwipe v (velocityThreshold cfg) d (directionalOffsetThreshold cfg)
  = isValidAxisSwipe v d cfg.
Proof. reflexivity. Qed.

(** The classifier is [None] exactly when neither axis is valid. *)
Lemma getSwipeDirection_None (gs : PanResponderGestureState) :
  _getSwipeDirection gs = None <->
  _isValidHorizontalSwipe gs = false /\ _isValidVerticalSwipe gs = false.
Proof.
  unfold _getSwipeDirection.
  destruct (JS.gt (JS.Math_abs (dx gs)) (JS.Math_abs (dy gs)));
    destruct (_isValidHorizontalSwipe gs), (_isValidVerticalSwipe gs);
    split; intros H; try discriminate; try (destruct H; discriminate); auto.
Qed.

(** What the end handler does to the world, for arbitrary callbacks. *)
Lemma handlePanResponderEnd_unfold {W : Type} (props : GestureHandlerProps W)
    (evt : GestureResponderEvent) (gs : PanResponderGestureState) (w : W) :
  _handlePanResponderEnd props evt gs w =
  match _getSwipeDirection gs with
  | Some d =>
      call_if_present (directionCallback props d) gs
        (call_if_present (option_map (fun f => f d) (onSwipe props)) gs w)
  | None => w
  end.
Proof.
  unfold _handlePanResponderEnd, _triggerSwipeHandlers.
  destruct (_getSwipeDirection gs) as [d|]; trivial.
  destruct d, (onSwipe props); reflexivity.
Qed.

(** The log that recording callbacks leave at the end of a gesture. *)
Lemma handlePanResponderEnd_log
    (cfg : PartialSwipeConfig) (enabled termination : option bool) (p : Present)
    (evt : GestureResponderEvent) (gs : PanResponderGestureState) (log : Log) :
  _handlePanResponderEnd (recordingProps cfg enabled termination p) evt gs log =
  match _getSwipeDirection gs with
  | Some d =>
      log ++ (if has_onSwipe p then [(H_onSwipe d, gs)] else [])
          ++ (if has_direction p d then [(directionHandler d, gs)] else [])
  | None => log
  end.
Proof.
  rewrite handlePanResponderEnd_unfold.
  destruct (_getSwipeDirection gs) as [d|]; trivial.
  destruct p as [a b c e f]; destruct d, a; simpl;
    repeat match goal with
           | |- context [when ?x _] => destruct x; simpl
           end;
    unfold record; rewrite <- ?app_assoc, ?app_nil_r; reflexivity.
Qed.

(** ** C1: axis validity and the merged configuration *)

(** C1 (does not hold on the code). The claim: axis validity compares with
    the thresholds of the merged configuration.  The code reads them from
    [defaultSwipeConfig]: with the override [{velocityThreshold: 0.1}] and
    the gesture [vx = vy = 0.2], [dx = dy = 0], both axes satisfy the claimed
    predicate on the merged configuration (its [velocityThreshold] is 0.1),
    and both validity functions answer false. *)
Theorem C1_validity_reads_default_thresholds :
  let props := plainProps
    (mkPartialSwipeConfig (Some 0.1%float) None None None None None) (Some true) in
  let gs := gesture 0%float 0%float 0.2%float 0.2%float in
  velocityThreshold (_swipeConfig props) = 0.1%float
  /\ isValidAxisSwipe (vx gs) (dy gs) (_swipeConfig props) = true
  /\ _isValidHorizontalSwipe gs = false
  /\ isValidAxisSwipe (vy gs) (dx gs) (_swipeConfig props) = true
  /\ _isValidVerticalSwipe gs = false
  /\ _getSwipeDirection gs = None.
Proof. cbv zeta. repeat split; vm_compute; reflexivity. Qed.

(** ** C2: the fallback example *)

(** C2 (counterexample). With the default configuration, the gesture
    [dx=10, dy=100, vx=0.5, vy=0.1] is classified as none, not as
    [SWIPE_RIGHT]. *)
Lemma C2_fallback_example_is_none :
  _getSwipeDirection (gesture 10%float 100%float 0.5%float 0.1%float) = None
  /\ _getSwipeDirection (gesture 10%float 100%float 0.5%float 0.1%float)
     <> Some SWIPE_RIGHT.
Proof. split; vm_compute; [reflexivity | discriminate]. Qed.

(** C2 (amended). With the default configuration, every gesture state with
    [dx=10, dy=100, vx=0.5, vy=0.1] is classified as none: vertical is
    dominant but invalid, and the horizontal fallback is invalid as well,
    because [|dy| = 100] is not below [directionalOffsetThreshold = 80].
    With [dy=50] instead, vertical is still dominant and invalid, horizontal
    is valid, and the fallback gives [SWIPE_RIGHT]. *)
Theorem C2_fallback_needs_bounded_drift
    (stateID moveX moveY x0 y0 numberActiveTouches : JS.number) :
  let gs := fun dy => mkGestureState stateID moveX moveY x0 y0
                        10%float dy 0.5%float 0.1%float numberActiveTouches in
  (JS.gt (JS.Math_abs (dx (gs 100%float))) (JS.Math_abs (dy (gs 100%float))) = false
   /\ _isValidVerticalSwipe (gs 100%float) = false
   /\ _isValidHorizontalSwipe (gs 100%float) = false
   /\ _getSwipeDirection (gs 100%float) = None)
  /\
  (JS.gt (JS.Math_abs (dx (gs 50%float))) (JS.Math_abs (dy (gs 50%float))) = false
   /\ _isValidVerticalSwipe (gs 50%float) = false
   /\ _isValidHorizontalSwipe (gs 50%float) = true
   /\ _getSwipeDirection (gs 50%float) = Some SWIPE_RIGHT).
Proof. cbv zeta. repeat split; reflexivity. Qed.

(** ** C3: the default of [swipeEnabled] *)

(** Without a [swipeEnabled] prop the gesture is never claimed: the handler
    reads [props.swipeEnabled], and [!!undefined] is false. *)
Lemma handleShouldSetPanResponder_without_swipeEnabled {W : Type}
    (props : GestureHandlerProps W)
    (evt : GestureResponderEvent) (gs : PanResponderGestureState) :
  props_swipeEnabled props = None ->
  _handleShouldSetPanResponder props evt gs = false.
Proof.
  intros H. unfold _handleShouldSetPanResponder. rewrite H. simpl.
  now destruct (_ && _).
Qed.

(** C3 (does not hold on the code). The claim: with no [swipeEnabled]
    supplied, one active touch, a gesture that is not a click and
    [needVerticalScroll] false, the gesture is claimed.  On the code, with
    props that carry neither a [swipeEnabled] prop nor a [config] entry, the
    merged configuration has [swipeEnabled = true], all the premises hold for
    the gesture [dx=10, dy=0], and [_handleShouldSetPanResponder] answers
    false. *)
Theorem C3_swipeEnabled_default_is_not_read :
  let props := plainProps emptyConfig None in
  let gs := gesture 10%float 0%float 0.5%float 0%float in
  props_swipeEnabled props = None
  /\ swipeEnabled (_swipeConfig props) = true
  /\ length (touches (nativeEvent oneTouch)) = 1
  /\ _gestureIsClick props gs = false
  /\ needVerticalScroll (_swipeConfig props) = false
  /\ _handleShouldSetPanResponder props oneTouch gs = false.
Proof. cbv zeta. repeat split; vm_compute; reflexivity. Qed.

(** With [swipeEnabled] passed as true, the same premises do claim the
    gesture. *)
Lemma handleShouldSetPanResponder_enabled {W : Type}
    (props : GestureHandlerProps W)
    (evt : GestureResponderEvent) (gs : PanResponderGestureState) :
  props_swipeEnabled props = Some true ->
  needVerticalScroll (_swipeConfig props) = false ->
  length (touches (nativeEvent evt)) = 1 ->
  _gestureIsClick props gs = false ->
  _handleShouldSetPanResponder props evt gs = true.
Proof.
  intros He Hs Ht Hc. unfold _handleShouldSetPanResponder.
  rewrite He, Hs, Ht, Hc. reflexivity.
Qed.

(** ** C4: the dominant-axis tie-break *)

(** C4. For every gesture state, with the horizontal direction RIGHT when
    [dx > 0] and LEFT otherwise, and the vertical direction DOWN when
    [dy > 0] and UP otherwise: if [|dx| > |dy|] the classifier returns the
    horizontal direction when the horizontal axis is valid, else the vertical
    direction when the vertical axis is valid, else none; if [|dy| >= |dx|]
    it returns the vertical direction when valid, else the horizontal
    direction when valid, else none. *)
Theorem C4_dominant_axis_tie_break (gs : PanResponderGestureState) :
  let absDx := JS.Math_abs (dx gs) in
  let absDy := JS.Math_abs (dy gs) in
  let horizontal := if JS.gt (dx gs) 0%float then SWIPE_RIGHT else SWIPE_LEFT in
  let vertical := if JS.gt (dy gs) 0%float then SWIPE_DOWN else SWIPE_UP in
  (JS.gt absDx absDy = true ->
   _getSwipeDirection gs =
     if _isValidHorizontalSwipe gs then Some horizontal
     else if _isValidVerticalSwipe gs then Some vertical
     else None)
  /\
  (JS.ge absDy absDx = true ->
   _getSwipeDirection gs =
     if _isValidVerticalSwipe gs then Some vertical
     else if _isValidHorizontalSwipe gs then Some horizontal
     else None)
  /\ (horizontal = SWIPE_RIGHT <-> JS.gt (dx gs) 0%float = true)
  /\ (horizontal = SWIPE_LEFT <-> JS.gt (dx gs) 0%float = false)
  /\ (vertical = SWIPE_DOWN <-> JS.gt (dy gs) 0%float = true)
  /\ (vertical = SWIPE_UP <-> JS.gt (dy gs) 0%float = false).
Proof.
  cbv zeta. unfold _getSwipeDirection. repeat split.
  - intros ->. reflexivity.
  - unfold JS.ge, JS.gt. intros H.
    apply NumberFacts.leb_not_gt in H. rewrite H. reflexivity.
  - destruct (JS.gt (dx gs) 0%float); [reflexivity | discriminate].
  - now intros ->.
  - destruct (JS.gt (dx gs) 0%float); [discriminate | reflexivity].
  - now intros ->.
  - destruct (JS.gt (dy gs) 0%float); [reflexivity | discriminate].
  - now intros ->.
  - destruct (JS.gt (dy gs) 0%float); [discriminate | reflexivity].
  - now intros ->.
Qed.

(** C4 at a concrete input of each branch: [dx=100, dy=10] is horizontal
    dominant and gives RIGHT; [dx=-10, dy=-100] with a slow horizontal
    velocity is vertical dominant and gives UP. *)
Lemma C4_dominant_axis_examples :
  _getSwipeDirection (gesture 100%float 10%float 0.5%float 0.5%float) = Some SWIPE_RIGHT
  /\ _getSwipeDirection (gesture (-10)%float (-100)%float 0.1%float (-0.5)%float)
     = Some SWIPE_UP.
Proof.
  split.
  - rewrite (proj1 (C4_dominant_axis_tie_break
                      (gesture 100%float 10%float 0.5%float 0.5%float)));
      reflexivity.
  - rewrite (proj1 (proj2 (C4_dominant_axis_tie_break
                      (gesture (-10)%float (-100)%float 0.1%float (-0.5)%float))));
      reflexivity.
Defined.

(** ** C5: dispatch at the end of a gesture *)

(** C5. On gesture end, whatever the callbacks are: when the classifier
    produces a direction [d], the world after the handler is the one obtained
    by calling [onSwipe d gestureState] first (if present) and then the
    callback that matches [d] on the gesture state (if present); when the
    classifier produces none, the world is unchanged.  With recording
    callbacks the log grows by exactly these calls, in this order. *)
Theorem C5_end_dispatch_order {W : Type} (props : GestureHandlerProps W)
    (cfg : PartialSwipeConfig) (enabled termination : option bool) (p : Present)
    (evt : GestureResponderEvent) (gs : PanResponderGestureState)
    (w : W) (log : Log) :
  match _getSwipeDirection gs with
  | Some d =>
      _handlePanResponderEnd props evt gs w =
        call_if_present (directionCallback props d) gs
          (call_if_present (option_map (fun f => f d) (onSwipe props)) gs w)
      /\
      _handlePanResponderEnd (recordingProps cfg enabled termination p) evt gs log =
        log ++ (if has_onSwipe p then [(H_onSwipe d, gs)] else [])
            ++ (if has_direction p d then [(directionHandler d, gs)] else [])
  | None =>
      _handlePanResponderEnd props evt gs w = w
      /\
      _handlePanResponderEnd (recordingProps cfg enabled termination p) evt gs log = log
  end.
Proof.
  rewrite handlePanResponderEnd_unfold, handlePanResponderEnd_log.
  destruct (_getSwipeDirection gs); split; reflexivity.
Qed.

(** ** C6: NaN inputs *)

(** A NaN operand makes the shared predicate false. *)
Lemma isValidSwipe_nan (velocity vt offset ot : JS.number) :
  JS.isNaN velocity || JS.isNaN offset = true ->
  _isValidSwipe velocity vt offset ot = false.
Proof.
  unfold _isValidSwipe, JS.isNaN, JS.gt, JS.lt, JS.Math_abs.
  intros H. apply orb_true_iff in H. destruct H as [H|H];
    apply NumberFacts.nan_abs in H.
  - now rewrite (NumberFacts.nan_ltb_r _ vt H).
  - rewrite (NumberFacts.nan_ltb_l _ ot H). apply andb_false_r.
Qed.

(** C6 (counterexample). A gesture state whose [dx] is NaN, with [dy=0],
    [vx=1], [vy=0], is classified as [SWIPE_LEFT], and both [onSwipe] and
    [onSwipeLeft] are called. *)
Lemma C6_nan_displacement_swipes_left :
  let gs := gesture nan 0%float 1%float 0%float in
  JS.isNaN (dx gs) = true
  /\ _getSwipeDirection gs = Some SWIPE_LEFT
  /\ _handlePanResponderEnd (recordingProps emptyConfig (Some true) None allPresent)
       oneTouch gs []
     = [(H_onSwipe SWIPE_LEFT, gs); (H_onSwipeLeft, gs)].
Proof. cbv zeta. repeat split; vm_compute; reflexivity. Qed.

(** C6 (amended). The classifier and the end handler are total functions of
    the gesture state.  For every gesture state in which [vx] or [dy] is NaN
    and also [vy] or [dx] is NaN (so each axis has a NaN operand), the
    classifier returns none and the end handler calls no callback: the world
    is unchanged and the log of recording callbacks stays as it was. *)
Theorem C6_nan_on_both_axes_is_none {W : Type} (props : GestureHandlerProps W)
    (cfg : PartialSwipeConfig) (enabled termination : option bool) (p : Present)
    (evt : GestureResponderEvent) (gs : PanResponderGestureState)
    (w : W) (log : Log) :
  (JS.isNaN (vx gs) || JS.isNaN (dy gs)) && (JS.isNaN (vy gs) || JS.isNaN (dx gs)) = true ->
  _getSwipeDirection gs = None
  /\ _handlePanResponderEnd props evt gs w = w
  /\ _handlePanResponderEnd (recordingProps cfg enabled termination p) evt gs log = log.
Proof.
  intros H. apply andb_true_iff in H. destruct H as [Hh Hv].
  assert (Hnone : _getSwipeDirection gs = None).
  { apply getSwipeDirection_None. split.
    - now apply isValidSwipe_nan.
    - now apply isValidSwipe_nan. }
  rewrite handlePanResponderEnd_unfold, handlePanResponderEnd_log, Hnone.
  repeat split.
Qed.

Lemma C6_nan_on_both_axes_witness :
  let gs := gesture 100%float 10%float nan nan in
  _getSwipeDirection gs = None
  /\ _handlePanResponderEnd (plainProps emptyConfig (Some true)) oneTouch gs tt = tt
  /\ _handlePanResponderEnd (recordingProps emptyConfig (Some true) None allPresent)
       oneTouch gs []
     = [].
Proof.
  exact (C6_nan_on_both_axes_is_none (plainProps emptyConfig (Some true))
           emptyConfig (Some true) None allPresent oneTouch
           (gesture 100%float 10%float nan nan) tt [] eq_refl).
Defined.

(** ** C7: thresholds are exclusive bounds *)

Lemma isValidSwipe_at_threshold (velocity vt offset ot : JS.number) :
  JS.strict_eq (JS.Math_abs velocity) vt = true
  \/ JS.strict_eq (JS.Math_abs offset) ot = true ->
  _isValidSwipe velocity vt offset ot = false.
Proof.
  unfold _isValidSwipe, JS.strict_eq, JS.gt, JS.lt.
  intros [H|H]; apply NumberFacts.eqb_not_ltb in H; destruct H as [H1 H2].
  - now rewrite H2.
  - rewrite H1. apply andb_false_r.
Qed.

(** The comparisons of the shared predicate are strict: for the thresholds
    it is called with, and so for the thresholds that the two axis functions
    read (those of [defaultSwipeConfig]), a value exactly at the threshold is
    not valid. *)
Lemma thresholds_read_are_exclusive (gs : PanResponderGestureState) :
  (JS.strict_eq (JS.Math_abs (vx gs)) (velocityThreshold defaultSwipeConfig) = true
   \/ JS.strict_eq (JS.Math_abs (dy gs)) (directionalOffsetThreshold defaultSwipeConfig) = true ->
   _isValidHorizontalSwipe gs = false)
  /\
  (JS.strict_eq (JS.Math_abs (vy gs)) (velocityThreshold defaultSwipeConfig) = true
   \/ JS.strict_eq (JS.Math_abs (dx gs)) (directionalOffsetThreshold defaultSwipeConfig) = true ->
   _isValidVerticalSwipe gs = false).
Proof.
  split; intros H; now apply isValidSwipe_at_threshold.
Qed.

(** C7 (does not hold on the code). The claim: for every configuration, a
    gesture whose [|vx|] (resp. [|vy|]) equals the configuration's
    [velocityThreshold], or whose [|dy|] (resp. [|dx|]) equals its
    [directionalOffsetThreshold], is not valid on that axis.  The axis
    functions read the thresholds of [defaultSwipeConfig]: with the override
    [{velocityThreshold: 0.5}] and [vx = vy = 0.5], and with the override
    [{directionalOffsetThreshold: 50}] and [dx = dy = 50], the value is
    exactly at the threshold of the merged configuration on both axes, and
    both axes are valid; the gestures are classified as swipes. *)
Theorem C7_merged_threshold_is_not_exclusive :
  let propsV := plainProps
    (mkPartialSwipeConfig (Some 0.5%float) None None None None None) (Some true) in
  let gsV := gesture 60%float 10%float 0.5%float 0.5%float in
  let propsD := plainProps
    (mkPartialSwipeConfig None (Some 50%float) None None None None) (Some true) in
  let gsD := gesture 50%float 50%float 1%float 1%float in
  (JS.strict_eq (JS.Math_abs (vx gsV)) (velocityThreshold (_swipeConfig propsV)) = true
   /\ JS.strict_eq (JS.Math_abs (vy gsV)) (velocityThreshold (_swipeConfig propsV)) = true
   /\ _isValidHorizontalSwipe gsV = true
   /\ _isValidVerticalSwipe gsV = true
   /\ _getSwipeDirection gsV = Some SWIPE_RIGHT)
  /\
  (JS.strict_eq (JS.Math_abs (dy gsD)) (directionalOffsetThreshold (_swipeConfig propsD)) = true
   /\ JS.strict_eq (JS.Math_abs (dx gsD)) (directionalOffsetThreshold (_swipeConfig propsD)) = true
   /\ _isValidHorizontalSwipe gsD = true
   /\ _isValidVerticalSwipe gsD = true
   /\ _getSwipeDirection gsD = Some SWIPE_DOWN).
Proof. cbv zeta. repeat split; vm_compute; reflexivity. Qed.

(** ** C8: click detection *)

(** C8. For every props and gesture state, [_gestureIsClick] is true iff
    [|dx|] and [|dy|] are both below [gestureIsClickThreshold], the one of
    the merged configuration: the caller's override when there is one, the
    default 5 otherwise. *)
Theorem C8_gestureIsClick_merged_threshold {W : Type}
    (props : GestureHandlerProps W) (gs : PanResponderGestureState) :
  let threshold :=
    match gestureIsClickThreshold_opt (config props) with
    | Some t => t
    | None => 5%float
    end in
  gestureIsClickThreshold (_swipeConfig props) = threshold
  /\ (_gestureIsClick props gs = true <->
      JS.lt (JS.Math_abs (dx gs)) threshold = true
      /\ JS.lt (JS.Math_abs (dy gs)) threshold = true).
Proof.
  cbv zeta. split.
  - reflexivity.
  - unfold _gestureIsClick. rewrite andb_true_iff. reflexivity.
Qed.

(** ** C9: vertical scroll priority *)

(** The guard of [_handleShouldSetPanResponder], written with two
    comparisons in the code, is [|dy| > scrollVerticalThreshold]. *)
Lemma scroll_guard_is_abs (d t : JS.number) :
  JS.gt d t || JS.lt d (JS.neg t) = JS.gt (JS.Math_abs d) t.
Proof.
  unfold JS.gt, JS.lt, JS.neg, JS.Math_abs.
  symmetry. apply NumberFacts.ltb_abs_split.
Qed.

(** C9. For every props whose merged configuration has
    [needVerticalScroll = true], every event and every gesture state with
    [|dy| > scrollVerticalThreshold], the gesture is not claimed, whatever
    [swipeEnabled], the number of touches and the click status are. *)
Theorem C9_vertical_scroll_declines {W : Type} (props : GestureHandlerProps W)
    (evt : GestureResponderEvent) (gs : PanResponderGestureState) :
  needVerticalScroll (_swipeConfig props) = true ->
  JS.gt (JS.Math_abs (dy gs)) (scrollVerticalThreshold (_swipeConfig props)) = true ->
  _handleShouldSetPanResponder props evt gs = false.
Proof.
  intros Hn Hd. unfold _handleShouldSetPanResponder.
  now rewrite Hn, scroll_guard_is_abs, Hd.
Qed.

(** C9 at a concrete input: scrolling enabled with the threshold 20, an
    upward drag of 30 with one touch and [swipeEnabled] true, which would be
    claimed without [needVerticalScroll]. *)
Lemma C9_vertical_scroll_declines_witness :
  let cfg := mkPartialSwipeConfig None None None (Some true) (Some 20%float) None in
  let gs := gesture 0%float (-30)%float 0%float (-1)%float in
  _handleShouldSetPanResponder (plainProps cfg (Some true)) oneTouch gs = false
  /\ _handleShouldSetPanResponder (plainProps emptyConfig (Some true)) oneTouch gs = true.
Proof.
  split.
  - apply (C9_vertical_scroll_declines
             (plainProps (mkPartialSwipeConfig None None None (Some true) (Some 20%float) None)
                         (Some true))
             oneTouch (gesture 0%float (-30)%float 0%float (-1)%float));
      reflexivity.
  - reflexivity.
Defined.

(** ** C10: only [dx], [dy], [vx], [vy] are read *)

Lemma same_number_gt_abs_l (x y t : JS.number) :
  same_number x y -> JS.gt (JS.Math_abs x) t = JS.gt (JS.Math_abs y) t.
Proof.
  intros [->|H]; trivial.
  unfold JS.gt, JS.Math_abs. apply NumberFacts.eqb_ltb_r.
  now apply NumberFacts.eqb_abs.
Qed.

Lemma same_number_lt_abs_l (x y t : JS.number) :
  same_number x y -> JS.lt (JS.Math_abs x) t = JS.lt (JS.Math_abs y) t.
Proof.
  intros [->|H]; trivial.
  unfold JS.lt, JS.Math_abs. apply NumberFacts.eqb_ltb_l.
  now apply NumberFacts.eqb_abs.
Qed.

Lemma same_number_gt_abs_r (x y t : JS.number) :
  same_number x y -> JS.gt t (JS.Math_abs x) = JS.gt t (JS.Math_abs y).
Proof.
  intros [->|H]; trivial.
  unfold JS.gt, JS.Math_abs. apply NumberFacts.eqb_ltb_l.
  now apply NumberFacts.eqb_abs.
Qed.

Lemma same_number_gt_l (x y t : JS.number) :
  same_number x y -> JS.gt x t = JS.gt y t.
Proof.
  intros [->|H]; trivial.
  unfold JS.gt. now apply NumberFacts.eqb_ltb_r.
Qed.

Lemma same_number_isValidSwipe (v v' d d' vt ot : JS.number) :
  same_number v v' -> same_number d d' ->
  _isValidSwipe v vt d ot = _isValidSwipe v' vt d' ot.
Proof.
  intros Hv Hd. unfold _isValidSwipe.
  now rewrite (same_number_gt_abs_l _ _ vt Hv), (same_number_lt_abs_l _ _ ot Hd).
Qed.

Lemma same_number_getSwipeDirection (gs1 gs2 : PanResponderGestureState) :
  same_number (dx gs1) (dx gs2) -> same_number (dy gs1) (dy gs2) ->
  same_number (vx gs1) (vx gs2) -> same_number (vy gs1) (vy gs2) ->
  _getSwipeDirection gs1 = _getSwipeDirection gs2.
Proof.
  intros Hdx Hdy Hvx Hvy.
  unfold _getSwipeDirection, _isValidHorizontalSwipe, _isValidVerticalSwipe.
  cbv zeta.
  rewrite (same_number_isValidSwipe _ _ _ _ _ _ Hvx Hdy),
          (same_number_isValidSwipe _ _ _ _ _ _ Hvy Hdx),
          (same_number_gt_l _ _ 0%float Hdx),
          (same_number_gt_l _ _ 0%float Hdy),
          (same_number_gt_abs_l _ _ (JS.Math_abs (dy gs1)) Hdx),
          (same_number_gt_abs_r _ _ (JS.Math_abs (dx gs2)) Hdy).
  reflexivity.
Qed.

(** C10. For every pair of gesture states that agree on [dx], [dy], [vx]
    and [vy], the classifier returns the same direction or none for both,
    and, for every props with recording callbacks, the same handlers fire in
    the same order at the end of the gesture (each receives the gesture
    state of its own call). *)
Theorem C10_classification_reads_four_fields
    (cfg : PartialSwipeConfig) (enabled termination : option bool) (p : Present)
    (evt1 evt2 : GestureResponderEvent) (gs1 gs2 : PanResponderGestureState) :
  same_number (dx gs1) (dx gs2) -> same_number (dy gs1) (dy gs2) ->
  same_number (vx gs1) (vx gs2) -> same_number (vy gs1) (vy gs2) ->
  _getSwipeDirection gs1 = _getSwipeDirection gs2
  /\ map fst (_handlePanResponderEnd (recordingProps cfg enabled termination p) evt1 gs1 [])
     = map fst (_handlePanResponderEnd (recordingProps cfg enabled termination p) evt2 gs2 []).
Proof.
  intros Hdx Hdy Hvx Hvy.
  pose proof (same_number_getSwipeDirection gs1 gs2 Hdx Hdy Hvx Hvy) as Hd.
  split; trivial.
  rewrite !handlePanResponderEnd_log, Hd.
  destruct (_getSwipeDirection gs2) as [d|]; trivial.
  destruct (has_onSwipe p), (has_direction p d); reflexivity.
Qed.

(** C10 at a concrete input: two gestures with the same displacement and
    velocity (up to the sign of a zero) that differ in every other field. *)
Lemma C10_classification_reads_four_fields_witness :
  let gs1 := mkGestureState 1%float 110%float 205%float 10%float 200%float
               100%float 0%float 0.5%float 0%float 1%float in
  let gs2 := mkGestureState 7%float 400%float 30%float 300%float 35%float
               100%float (-0)%float 0.5%float 0%float 2%float in
  _getSwipeDirection gs1 = _getSwipeDirection gs2
  /\ map fst (_handlePanResponderEnd
                (recordingProps emptyConfig (Some true) None allPresent) oneTouch gs1 [])
     = map fst (_handlePanResponderEnd
                (recordingProps emptyConfig (Some true) None allPresent) oneTouch gs2 []).
Proof.
  apply C10_classification_reads_four_fields.
  - left. reflexivity.
  - right. reflexivity.
  - left. reflexivity.
  - left. reflexivity.
Defined.

(** ** Further properties of the classifier *)

(** The shared predicate without absolute values: the velocity lies
    outside [[-velocityThreshold, velocityThreshold]] and the offset lies
    strictly inside [(-directionalOffsetThreshold, directionalOffsetThreshold)]. *)
Lemma isValidSwipe_intervals (velocity vt offset ot : JS.number) :
  _isValidSwipe velocity vt offset ot =
  (JS.gt velocity vt || JS.lt velocity (JS.neg vt))
  && (JS.lt offset ot && JS.gt offset (JS.neg ot)).
Proof.
  unfold _isValidSwipe, JS.gt, JS.lt, JS.neg, JS.Math_abs.
  now rewrite NumberFacts.ltb_abs_split, NumberFacts.ltb_abs_between.
Qed.

(** The shared predicate only sees absolute values. *)
Lemma isValidSwipe_neg (velocity vt offset ot : JS.number) :
  _isValidSwipe (JS.neg velocity) vt offset ot = _isValidSwipe velocity vt offset ot
  /\ _isValidSwipe velocity vt (JS.neg offset) ot = _isValidSwipe velocity vt offset ot.
Proof.
  unfold _isValidSwipe, JS.neg, JS.Math_abs.
  now rewrite !NumberFacts.abs_opp.
Qed.

(** X1. Each direction is returned in exactly one situation.  RIGHT: the
    horizontal axis is valid, [dx > 0], and either [|dx| > |dy|] or the
    vertical axis is invalid.  LEFT: the same with [dx > 0] false.  DOWN: the
    vertical axis is valid, [dy > 0], and either [|dx| > |dy|] is false or
    the horizontal axis is invalid.  UP: the same with [dy > 0] false. *)
Theorem X1_direction_characterisation (gs : PanResponderGestureState) :
  let H := _isValidHorizontalSwipe gs in
  let V := _isValidVerticalSwipe gs in
  let horizontalDominates := JS.gt (JS.Math_abs (dx gs)) (JS.Math_abs (dy gs)) in
  (_getSwipeDirection gs = Some SWIPE_RIGHT <->
   H = true /\ JS.gt (dx gs) 0%float = true /\ (horizontalDominates = true \/ V = false))
  /\ (_getSwipeDirection gs = Some SWIPE_LEFT <->
      H = true /\ JS.gt (dx gs) 0%float = false /\ (horizontalDominates = true \/ V = false))
  /\ (_getSwipeDirection gs = Some SWIPE_DOWN <->
      V = true /\ JS.gt (dy gs) 0%float = true /\ (horizontalDominates = false \/ H = false))
  /\ (_getSwipeDirection gs = Some SWIPE_UP <->
      V = true /\ JS.gt (dy gs) 0%float = false /\ (horizontalDominates = false \/ H = false)).
Proof.
  cbv zeta. unfold _getSwipeDirection.
  destruct (JS.gt (JS.Math_abs (dx gs)) (JS.Math_abs (dy gs)));
    destruct (_isValidHorizontalSwipe gs), (_isValidVerticalSwipe gs);
    destruct (JS.gt (dx gs) 0%float), (JS.gt (dy gs) 0%float);
    repeat split; intros; try discriminate; auto;
    repeat match goal with
           | H : _ /\ _ |- _ => destruct H
           | H : _ \/ _ |- _ => destruct H
           end; discriminate.
Qed.

(** X2. The classifier produces a direction exactly when at least one of
    the two axes is valid. *)
Theorem X2_direction_iff_some_axis_valid (gs : PanResponderGestureState) :
  (exists d, _getSwipeDirection gs = Some d) <->
  _isValidHorizontalSwipe gs = true \/ _isValidVerticalSwipe gs = true.
Proof.
  pose proof (getSwipeDirection_None gs) as HN.
  destruct (_getSwipeDirection gs) as [d|] eqn:E.
  - split; [intros _ | intros _; now exists d].
    destruct (_isValidHorizontalSwipe gs); [now left |].
    destruct (_isValidVerticalSwipe gs); [now right |].
    destruct HN as [_ HN]. discriminate HN. now split.
  - destruct HN as [HN _]. destruct (HN eq_refl) as [-> ->].
    split; [intros [d Hd]; discriminate | intros [H|H]; discriminate].
Qed.

(** X3. The validity functions in terms of plain intervals: a horizontal
    swipe is valid iff [vx] is above 0.3 or below -0.3 and [dy] is strictly
    between -80 and 80; a vertical swipe is valid iff [vy] is above 0.3 or
    below -0.3 and [dx] is strictly between -80 and 80. *)
Theorem X3_validity_intervals (gs : PanResponderGestureState) :
  _isValidHorizontalSwipe gs =
    (JS.gt (vx gs) 0.3%float || JS.lt (vx gs) (-0.3)%float)
    && (JS.lt (dy gs) 80%float && JS.gt (dy gs) (-80)%float)
  /\
  _isValidVerticalSwipe gs =
    (JS.gt (vy gs) 0.3%float || JS.lt (vy gs) (-0.3)%float)
    && (JS.lt (dx gs) 80%float && JS.gt (dx gs) (-80)%float).
Proof.
  unfold _isValidHorizontalSwipe, _isValidVerticalSwipe. cbv zeta.
  rewrite !isValidSwipe_intervals. split; reflexivity.
Qed.

(** X4. A slow gesture is never a swipe: when neither [|vx|] nor [|vy|]
    exceeds 0.3, the classifier returns none and the end handler leaves the
    world unchanged, whatever the displacement and the props are. *)
Theorem X4_slow_gesture_is_none {W : Type} (props : GestureHandlerProps W)
    (evt : GestureResponderEvent) (gs : PanResponderGestureState) (w : W) :
  JS.gt (JS.Math_abs (vx gs)) 0.3%float = false ->
  JS.gt (JS.Math_abs (vy gs)) 0.3%float = false ->
  _getSwipeDirection gs = None
  /\ _handlePanResponderEnd props evt gs w = w.
Proof.
  intros Hx Hy.
  assert (HN : _getSwipeDirection gs = None).
  { apply getSwipeDirection_None.
    unfold _isValidHorizontalSwipe, _isValidVerticalSwipe, _isValidSwipe. simpl.
    now rewrite Hx, Hy. }
  split; trivial.
  now rewrite handlePanResponderEnd_unfold, HN.
Qed.

Lemma X4_slow_gesture_witness :
  let gs := gesture 300%float 2%float 0.3%float (-0.1)%float in
  _getSwipeDirection gs = None
  /\ _handlePanResponderEnd (recordingProps emptyConfig (Some true) None allPresent)
       oneTouch gs [] = [].
Proof.
  apply (X4_slow_gesture_is_none
           (recordingProps emptyConfig (Some true) None allPresent) oneTouch
           (gesture 300%float 2%float 0.3%float (-0.1)%float) []);
    reflexivity.
Defined.

(** X5. A wide diagonal drag is never a swipe: when [|dx| >= 80] and
    [|dy| >= 80], the classifier returns none and the end handler leaves the
    world unchanged, whatever the velocities and the props are. *)
Theorem X5_wide_diagonal_is_none {W : Type} (props : GestureHandlerProps W)
    (evt : GestureResponderEvent) (gs : PanResponderGestureState) (w : W) :
  JS.ge (JS.Math_abs (dx gs)) 80%float = true ->
  JS.ge (JS.Math_abs (dy gs)) 80%float = true ->
  _getSwipeDirection gs = None
  /\ _handlePanResponderEnd props evt gs w = w.
Proof.
  unfold JS.ge. intros Hx Hy.
  apply NumberFacts.leb_not_gt in Hx. apply NumberFacts.leb_not_gt in Hy.
  assert (HN : _getSwipeDirection gs = None).
  { apply getSwipeDirection_None.
    unfold _isValidHorizontalSwipe, _isValidVerticalSwipe, _isValidSwipe, JS.lt. simpl.
    rewrite Hx, Hy. now rewrite !andb_false_r. }
  split; trivial.
  now rewrite handlePanResponderEnd_unfold, HN.
Qed.

Lemma X5_wide_diagonal_witness :
  let gs := gesture 80%float (-120)%float 2%float (-3)%float in
  _getSwipeDirection gs = None
  /\ _handlePanResponderEnd (recordingProps emptyConfig (Some true) None allPresent)
       oneTouch gs [] = [].
Proof.
  apply (X5_wide_diagonal_is_none
           (recordingProps emptyConfig (Some true) None allPresent) oneTouch
           (gesture 80%float (-120)%float 2%float (-3)%float) []);
    reflexivity.
Defined.

(** *** Reflections *)

Lemma validity_mirrorHorizontal (gs : PanResponderGestureState) :
  _isValidHorizontalSwipe (mirrorHorizontal gs) = _isValidHorizontalSwipe gs
  /\ _isValidVerticalSwipe (mirrorHorizontal gs) = _isValidVerticalSwipe gs.
Proof.
  unfold _isValidHorizontalSwipe, _isValidVerticalSwipe. cbv zeta.
  split; apply isValidSwipe_neg.
Qed.

Lemma validity_mirrorVertical (gs : PanResponderGestureState) :
  _isValidHorizontalSwipe (mirrorVertical gs) = _isValidHorizontalSwipe gs
  /\ _isValidVerticalSwipe (mirrorVertical gs) = _isValidVerticalSwipe gs.
Proof.
  unfold _isValidHorizontalSwipe, _isValidVerticalSwipe. cbv zeta.
  split; apply isValidSwipe_neg.
Qed.

Lemma Math_abs_neg (x : JS.number) : JS.Math_abs (JS.neg x) = JS.Math_abs x.
Proof. apply NumberFacts.abs_opp. Qed.

(** For a positive or negative number, negation flips the test [x > 0]. *)
Lemma gt_zero_neg (x : JS.number) :
  JS.gt x 0%float = true \/ JS.lt x 0%float = true ->
  JS.gt (JS.neg x) 0%float = negb (JS.gt x 0%float).
Proof.
  unfold JS.gt, JS.neg, JS.lt. rewrite NumberFacts.ltb_zero_opp.
  intros [Hs|Hs]; rewrite Hs, (NumberFacts.ltb_asym _ _ Hs); reflexivity.
Qed.

(** Of two numbers of which one is strictly larger, [a > b] decides
    [b > a]. *)
Lemma gt_flip (a b : JS.number) :
  JS.gt a b = true \/ JS.gt b a = true -> JS.gt b a = negb (JS.gt a b).
Proof.
  unfold JS.gt. intros [Hs|Hs]; rewrite Hs, (NumberFacts.ltb_asym _ _ Hs); reflexivity.
Qed.

(** X6. Mirroring a gesture left-right (negating [dx] and [vx]) exchanges
    LEFT and RIGHT in the classification and changes nothing else, provided
    [dx] is positive or negative (for [dx] zero or NaN both gestures are
    labelled LEFT on the horizontal axis). *)
Theorem X6_mirror_horizontal (gs : PanResponderGestureState) :
  JS.gt (dx gs) 0%float = true \/ JS.lt (dx gs) 0%float = true ->
  _getSwipeDirection (mirrorHorizontal gs)
  = option_map flipHorizontal (_getSwipeDirection gs).
Proof.
  intros Hs. unfold _getSwipeDirection. cbv zeta.
  destruct (validity_mirrorHorizontal gs) as [-> ->].
  change (dx (mirrorHorizontal gs)) with (JS.neg (dx gs)).
  change (dy (mirrorHorizontal gs)) with (dy gs).
  rewrite Math_abs_neg, (gt_zero_neg _ Hs).
  destruct (JS.gt (JS.Math_abs (dx gs)) (JS.Math_abs (dy gs)));
    destruct (_isValidHorizontalSwipe gs), (_isValidVerticalSwipe gs);
    destruct (JS.gt (dx gs) 0%float), (JS.gt (dy gs) 0%float); reflexivity.
Qed.

Lemma X6_mirror_horizontal_witness :
  _getSwipeDirection (mirrorHorizontal (gesture 100%float 10%float 0.5%float 0%float))
  = Some SWIPE_LEFT.
Proof.
  rewrite (X6_mirror_horizontal (gesture 100%float 10%float 0.5%float 0%float)).
  - reflexivity.
  - left. reflexivity.
Defined.

(** X7. Mirroring a gesture up-down (negating [dy] and [vy]) exchanges UP
    and DOWN in the classification and changes nothing else, provided [dy]
    is positive or negative. *)
Theorem X7_mirror_vertical (gs : PanResponderGestureState) :
  JS.gt (dy gs) 0%float = true \/ JS.lt (dy gs) 0%float = true ->
  _getSwipeDirection (mirrorVertical gs)
  = option_map flipVertical (_getSwipeDirection gs).
Proof.
  intros Hs. unfold _getSwipeDirection. cbv zeta.
  destruct (validity_mirrorVertical gs) as [-> ->].
  change (dx (mirrorVertical gs)) with (dx gs).
  change (dy (mirrorVertical gs)) with (JS.neg (dy gs)).
  rewrite Math_abs_neg, (gt_zero_neg _ Hs).
  destruct (JS.gt (JS.Math_abs (dx gs)) (JS.Math_abs (dy gs)));
    destruct (_isValidHorizontalSwipe gs), (_isValidVerticalSwipe gs);
    destruct (JS.gt (dx gs) 0%float), (JS.gt (dy gs) 0%float); reflexivity.
Qed.

Lemma X7_mirror_vertical_witness :
  _getSwipeDirection (mirrorVertical (gesture 0%float (-60)%float 0%float (-1)%float))
  = Some SWIPE_DOWN.
Proof.
  rewrite (X7_mirror_vertical (gesture 0%float (-60)%float 0%float (-1)%float)).
  - reflexivity.
  - right. reflexivity.
Defined.

(** X8. Exchanging the two axes of a gesture exchanges them in the
    classification (RIGHT with DOWN, LEFT with UP), provided one of [|dx|],
    [|dy|] is strictly larger than the other. *)
Theorem X8_transpose (gs : PanResponderGestureState) :
  JS.gt (JS.Math_abs (dx gs)) (JS.Math_abs (dy gs)) = true
  \/ JS.gt (JS.Math_abs (dy gs)) (JS.Math_abs (dx gs)) = true ->
  _getSwipeDirection (transpose gs)
  = option_map transposeDirection (_getSwipeDirection gs).
Proof.
  intros Hs. unfold _getSwipeDirection. cbv zeta.
  change (_isValidHorizontalSwipe (transpose gs)) with (_isValidVerticalSwipe gs).
  change (_isValidVerticalSwipe (transpose gs)) with (_isValidHorizontalSwipe gs).
  change (dx (transpose gs)) with (dy gs).
  change (dy (transpose gs)) with (dx gs).
  rewrite (gt_flip _ _ Hs).
  destruct (JS.gt (JS.Math_abs (dx gs)) (JS.Math_abs (dy gs)));
    destruct (_isValidHorizontalSwipe gs), (_isValidVerticalSwipe gs);
    destruct (JS.gt (dx gs) 0%float), (JS.gt (dy gs) 0%float); reflexivity.
Qed.

Lemma X8_transpose_witness :
  _getSwipeDirection (transpose (gesture (-100)%float 10%float (-0.5)%float 0%float))
  = Some SWIPE_UP.
Proof.
  rewrite (X8_transpose (gesture (-100)%float 10%float (-0.5)%float 0%float)).
  - reflexivity.
  - left. reflexivity.
Defined.

(** X9. On an exact diagonal the vertical axis wins: when [|dx|] equals
    [|dy|] and the vertical axis is valid, the classifier returns the
    vertical direction, also when the horizontal axis is valid; and when
    both axes are valid the transposed gesture is labelled vertically too,
    which is why the exchange of axes of X8 needs a strict inequality. *)
Theorem X9_tie_prefers_vertical (gs : PanResponderGestureState) :
  JS.strict_eq (JS.Math_abs (dx gs)) (JS.Math_abs (dy gs)) = true ->
  _isValidVerticalSwipe gs = true ->
  _getSwipeDirection gs
  = Some (if JS.gt (dy gs) 0%float then SWIPE_DOWN else SWIPE_UP)
  /\ (_isValidHorizontalSwipe gs = true ->
      _getSwipeDirection (transpose gs)
      = Some (if JS.gt (dx gs) 0%float then SWIPE_DOWN else SWIPE_UP)).
Proof.
  unfold JS.strict_eq. intros He Hv.
  apply NumberFacts.eqb_not_ltb in He. destruct He as [H1 H2].
  change (JS.gt (JS.Math_abs (dy gs)) (JS.Math_abs (dx gs)) = false) in H1.
  change (JS.gt (JS.Math_abs (dx gs)) (JS.Math_abs (dy gs)) = false) in H2.
  unfold _getSwipeDirection. cbv zeta.
  change (_isValidHorizontalSwipe (transpose gs)) with (_isValidVerticalSwipe gs).
  change (_isValidVerticalSwipe (transpose gs)) with (_isValidHorizontalSwipe gs).
  change (dx (transpose gs)) with (dy gs).
  change (dy (transpose gs)) with (dx gs).
  rewrite H1, H2, Hv. split.
  - reflexivity.
  - now intros ->.
Qed.

Lemma X9_tie_prefers_vertical_witness :
  _getSwipeDirection (gesture 50%float 50%float 1%float 1%float) = Some SWIPE_DOWN
  /\ _getSwipeDirection (transpose (gesture 50%float (-50)%float 1%float 1%float))
     = Some SWIPE_DOWN.
Proof.
  split.
  - apply (proj1 (X9_tie_prefers_vertical (gesture 50%float 50%float 1%float 1%float)
                    eq_refl eq_refl)).
  - apply (proj2 (X9_tie_prefers_vertical (gesture 50%float (-50)%float 1%float 1%float)
                    eq_refl eq_refl)).
    reflexivity.
Defined.

(** ** Further properties of the responder callbacks *)

(** X10. The claim decision, in full: a start or move is claimed iff the
    [swipeEnabled] prop is true, exactly one touch is active, the gesture is
    not a click ([|dx|] and [|dy|] are not both below
    [gestureIsClickThreshold]), and, when [needVerticalScroll] is set,
    [|dy|] does not exceed [scrollVerticalThreshold]; the thresholds and
    [needVerticalScroll] are those of the merged configuration. *)
Theorem X10_claim_decision {W : Type} (props : GestureHandlerProps W)
    (evt : GestureResponderEvent) (gs : PanResponderGestureState) :
  _handleShouldSetPanResponder props evt gs = true <->
  props_swipeEnabled props = Some true
  /\ length (touches (nativeEvent evt)) = 1
  /\ ~ (JS.lt (JS.Math_abs (dx gs)) (gestureIsClickThreshold (_swipeConfig props)) = true
        /\ JS.lt (JS.Math_abs (dy gs)) (gestureIsClickThreshold (_swipeConfig props)) = true)
  /\ (needVerticalScroll (_swipeConfig props) = true ->
      JS.gt (JS.Math_abs (dy gs)) (scrollVerticalThreshold (_swipeConfig props)) = false).
Proof.
  unfold _handleShouldSetPanResponder, _gestureIsClick.
  rewrite scroll_guard_is_abs.
  destruct (needVerticalScroll (_swipeConfig props));
    destruct (JS.gt (JS.Math_abs (dy gs)) (scrollVerticalThreshold (_swipeConfig props)));
    destruct (props_swipeEnabled props) as [[|]|];
    destruct (Nat.eqb_spec (length (touches (nativeEvent evt))) 1) as [Hl|Hl];
    destruct (JS.lt (JS.Math_abs (dx gs)) (gestureIsClickThreshold (_swipeConfig props)));
    destruct (JS.lt (JS.Math_abs (dy gs)) (gestureIsClickThreshold (_swipeConfig props)));
    simpl; split;
    try (intros H; discriminate H);
    try (intros (He & Ht & Hc & Hs); first
           [ discriminate He
           | contradiction
           | exfalso; apply Hc; split; reflexivity
           | discriminate (Hs eq_refl) ]);
    try (intros _; repeat split; trivial;
         first [ intros [Ha Hb]; discriminate | intros Hn; discriminate Hn | idtac ]).
Qed.

(** X11. The claim decision does not depend on the direction of the
    displacement: mirroring the gesture left-right or up-down leaves it
    unchanged. *)
Theorem X11_claim_decision_mirror {W : Type} (props : GestureHandlerProps W)
    (evt : GestureResponderEvent) (gs : PanResponderGestureState) :
  _handleShouldSetPanResponder props evt (mirrorHorizontal gs)
  = _handleShouldSetPanResponder props evt gs
  /\ _handleShouldSetPanResponder props evt (mirrorVertical gs)
     = _handleShouldSetPanResponder props evt gs.
Proof.
  unfold _handleShouldSetPanResponder, _gestureIsClick.
  rewrite !scroll_guard_is_abs.
  change (dx (mirrorHorizontal gs)) with (JS.neg (dx gs)).
  change (dy (mirrorHorizontal gs)) with (dy gs).
  change (dx (mirrorVertical gs)) with (dx gs).
  change (dy (mirrorVertical gs)) with (JS.neg (dy gs)).
  rewrite !Math_abs_neg. split; reflexivity.
Qed.

(** X12. What fires at the end of a gesture depends on the props only
    through the five callbacks: for two props with the same callbacks, whatever
    their [config], [swipeEnabled] and [responderTerminationRequest], and for
    any two events, a release under the first and a forced termination under
    the second leave the same world. *)
Theorem X12_end_reads_only_callbacks {W : Type}
    (cfg1 cfg2 : PartialSwipeConfig) (enabled1 enabled2 term1 term2 : option bool)
    (onSwipe : option (swipeDirections -> PanResponderGestureState -> W -> W))
    (onSwipeUp onSwipeDown onSwipeLeft onSwipeRight :
       option (PanResponderGestureState -> W -> W))
    (evt1 evt2 : GestureResponderEvent) (gs : PanResponderGestureState) (w : W) :
  onPanResponderRelease
    (_panResponder_callbacks
       (mkProps cfg1 enabled1 term1 onSwipe onSwipeUp onSwipeDown onSwipeLeft onSwipeRight))
    evt1 gs w
  = onPanResponderTerminate
      (_panResponder_callbacks
         (mkProps cfg2 enabled2 term2 onSwipe onSwipeUp onSwipeDown onSwipeLeft onSwipeRight))
      evt2 gs w.
Proof.
  simpl. rewrite !handlePanResponderEnd_unfold.
  destruct (_getSwipeDirection gs) as [[ | | | ]|]; reflexivity.
Qed.

(** X13. Starts and moves are claimed by the same rule, which reads the
    event only through its number of active touches: for two events with as
    many touches, the start decision on one is the move decision on the
    other. *)
Theorem X13_start_and_move_agree {W : Type} (props : GestureHandlerProps W)
    (evt1 evt2 : GestureResponderEvent) (gs : PanResponderGestureState) :
  length (touches (nativeEvent evt1)) = length (touches (nativeEvent evt2)) ->
  onStartShouldSetPanResponder (_panResponder_callbacks props) evt1 gs
  = onMoveShouldSetPanResponder (_panResponder_callbacks props) evt2 gs.
Proof.
  intros Hl. simpl. unfold _handleShouldSetPanResponder. now rewrite Hl.
Qed.

Lemma X13_start_and_move_agree_witness :
  let evt1 := mkGestureResponderEvent
                (mkNativeTouchEvent [mkNativeTouch 0%float 12%float 40%float]) in
  let evt2 := mkGestureResponderEvent
                (mkNativeTouchEvent [mkNativeTouch 3%float 200%float 7%float]) in
  let props := plainProps emptyConfig (Some true) in
  let gs := gesture 30%float 2%float 0.4%float 0%float in
  onStartShouldSetPanResponder (_panResponder_callbacks props) evt1 gs
  = onMoveShouldSetPanResponder (_panResponder_callbacks props) evt2 gs.
Proof.
  cbv zeta. apply X13_start_and_move_agree. reflexivity.
Defined.

(** X14. A takeover by another responder is refused exactly when
    [responderTerminationRequest] is passed as false; with the prop absent
    or true it is granted, whatever the event, the gesture and the rest of
    the props are. *)
Theorem X14_termination_request {W : Type} (props : GestureHandlerProps W)
    (evt : GestureResponderEvent) (gs : PanResponderGestureState) :
  (onPanResponderTerminationRequest (_panResponder_callbacks props) evt gs = false
   <-> responderTerminationRequest props = Some false)
  /\ (onPanResponderTerminationRequest (_panResponder_callbacks props) evt gs = true
      <-> responderTerminationRequest props = None
          \/ responderTerminationRequest props = Some true).
Proof.
  simpl. unfold _handleResponderTerminationRequest.
  destruct (responderTerminationRequest props) as [[|]|]; simpl;
    repeat split; intros; try discriminate; auto;
    match goal with H : _ \/ _ |- _ => destruct H; discriminate end.
Qed.

(** ** The direction comes from the displacement, not from the velocity *)

(** X15. Reversing the velocity on either axis, or on both, does not change
    the classification: the velocities are read through their absolute value
    only, and left/right, up/down are decided by the signs of [dx] and
    [dy]. *)
Theorem X15_velocity_sign_is_ignored (gs : PanResponderGestureState) :
  _getSwipeDirection (withVelocity gs (JS.neg (vx gs)) (vy gs)) = _getSwipeDirection gs
  /\ _getSwipeDirection (withVelocity gs (vx gs) (JS.neg (vy gs))) = _getSwipeDirection gs
  /\ _getSwipeDirection (withVelocity gs (JS.neg (vx gs)) (JS.neg (vy gs)))
     = _getSwipeDirection gs.
Proof.
  unfold _getSwipeDirection, _isValidHorizontalSwipe, _isValidVerticalSwipe.
  cbv zeta.
  repeat match goal with
         | |- context [dx (withVelocity gs ?a ?b)] =>
             change (dx (withVelocity gs a b)) with (dx gs)
         | |- context [dy (withVelocity gs ?a ?b)] =>
             change (dy (withVelocity gs a b)) with (dy gs)
         | |- context [vx (withVelocity gs ?a ?b)] =>
             change (vx (withVelocity gs a b)) with a
         | |- context [vy (withVelocity gs ?a ?b)] =>
             change (vy (withVelocity gs a b)) with b
         end.
  rewrite !(proj1 (isValidSwipe_neg _ _ _ _)).
  repeat split; reflexivity.
Qed.
